(** * python-pixabay: the search clients of [src/pixabay.py]

    A shallow embedding of the two Pixabay clients ([Image] and [Video],
    both subclasses of [IPixabay]) and the properties of their [search]
    methods: which payload is built, which URL is requested, how the
    response is classified, and what is left untouched. *)

From Stdlib Require Import ZArith String.
From stdpp Require Import gmap strings list fin_maps.

Local Open Scope string_scope.
Local Open Scope Z_scope.

(** ** Python values and outcomes *)

(** The arguments of [search] are untyped in the source; a caller may hand
    over any scalar.  These are the scalars that matter for a query
    string. *)
Inductive PyVal : Type :=
| PyNone
| PyBool (b : bool)
| PyInt (n : Z)
| PyStr (s : string).

#[global] Instance PyVal_eq_dec : EqDecision PyVal.
Proof. solve_decision. Defined.

(** Exceptions that can leave [search].  [ValueError] is the one the source
    raises itself; the other two come from the collaborators it calls
    ([requests.get] and [Response.json]) and are never caught. *)
Inductive exn : Type :=
| ValueError (arg : string)
| JSONDecodeError
| ConnectionError.

Inductive result (A : Type) : Type :=
| Return (a : A)
| Raise (e : exn).
Arguments Return {A} a.
Arguments Raise {A} e.

(** ** The objects of the program *)

(** An instance of [IPixabay]: the two attributes set by [__init__]. *)
Record IPixabay : Type := {
  api_key : PyVal;
  root_url : string
}.

(** What [requests.get(url, params=...)] is called with. *)
Record Request : Type := {
  url : string;
  params : gmap string PyVal
}.

(** What the source reads off the response object. *)
Record Response : Type := {
  status_code : Z;
  text : string
}.

(** The state a method call runs in: the receiver object and the log of
    the GET requests made so far. *)
Record World : Type := {
  self : IPixabay;
  sent : list Request
}.

(** The collaborators the source delegates to: the JSON reader behind
    [Response.json] ([None]: the body is not JSON) and the network behind
    [requests.get] ([None]: no response arrived).  The answer of the
    network may depend on what was requested before. *)
Record Env (Json : Type) : Type := {
  loads : string → option Json;
  transport : list Request → Request → option Response
}.
Arguments loads {Json} _ _.
Arguments transport {Json} _ _ _.

(** ** A state and exception monad for method bodies *)

Definition M (A : Type) : Type := World → result A * World.

#[global] Instance M_ret : MRet M := λ A a w, (Return a, w).

#[global] Instance M_bind : MBind M := λ A B f m w,
  match m w with
  | (Return a, w') => f a w'
  | (Raise e, w') => (Raise e, w')
  end.

Definition raise {A : Type} (e : exn) : M A := λ w, (Raise e, w).

(** Reading [self]. *)
Definition this : M IPixabay := λ w, (Return (self w), w).

(** The GET requests a computation adds to the log. *)
Definition issued {A : Type} (m : M A) (w : World) : list Request :=
  drop (length (sent w)) (sent (m w).2).

(** [IPixabay.__init__]: stores the key and the fixed root URL.  Nothing
    is inspected, so the outcome is always an object. *)
Definition IPixabay_init (key : PyVal) : result IPixabay :=
  Return {| api_key := key; root_url := "https://pixabay.com/api/" |}.

Section Collaborators.
Context {Json : Type} (E : Env Json).

(** [requests.get(url, params=payload)]: one request goes out and is
    logged; the network answers or fails.  What the library does below
    this call (connections, redirects) is not part of the source. *)
Definition get (u : string) (payload : gmap string PyVal) : M Response := λ w,
  let r := {| url := u; params := payload |} in
  let w' := {| self := self w; sent := sent w ++ [r] |} in
  match transport E (sent w) r with
  | Some resp => (Return resp, w')
  | None => (Raise ConnectionError, w')
  end.

(** [resp.json()]: the body read as JSON, or the reader's exception. *)
Definition json (resp : Response) : M Json :=
  match loads E (text resp) with
  | Some j => mret j
  | None => raise JSONDecodeError
  end.

End Collaborators.

(** ** class Image *)

Module Image.

(** A call of [Image.search]: each parameter is either passed ([Some]) or
    left out ([None]), in which case the default of the signature applies. *)
Record Args : Type := {
  q : option PyVal;
  lang : option PyVal;
  id : option PyVal;
  image_type : option PyVal;
  orientation : option PyVal;
  category : option PyVal;
  min_width : option PyVal;
  min_height : option PyVal;
  colors : option PyVal;
  editors_choice : option PyVal;
  safesearch : option PyVal;
  order : option PyVal;
  page : option PyVal;
  per_page : option PyVal;
  callback : option PyVal;
  pretty : option PyVal
}.

(** [Image(api_key)]: the constructor inherited from [IPixabay]. *)
Definition new (key : PyVal) : result IPixabay := IPixabay_init key.

Section Search.
Context {Json : Type} (E : Env Json).

Definition search (a : Args) : M Json :=
  let q := default (PyStr "yellow flower") (q a) in
  let lang := default (PyStr "en") (lang a) in
  let id := default (PyStr "") (id a) in
  let image_type := default (PyStr "all") (image_type a) in
  let orientation := default (PyStr "all") (orientation a) in
  let category := default (PyStr "") (category a) in
  let min_width := default (PyInt 0) (min_width a) in
  let min_height := default (PyInt 0) (min_height a) in
  let colors := default (PyStr "") (colors a) in
  let editors_choice := default (PyStr "false") (editors_choice a) in
  let safesearch := default (PyStr "false") (safesearch a) in
  let order := default (PyStr "popular") (order a) in
  let page := default (PyInt 1) (page a) in
  let per_page := default (PyInt 20) (per_page a) in
  let callback := default (PyStr "") (callback a) in
  let pretty := default (PyStr "false") (pretty a) in
  o ← this;
  let payload : gmap string PyVal := list_to_map [
    ("key", api_key o);
    ("q", q);
    ("lang", lang);
    ("id", id);
    ("image_type", image_type);
    ("orientation", orientation);
    ("category", category);
    ("min_width", min_width);
    ("min_height", min_height);
    ("colors", colors);
    ("editors_choice", editors_choice);
    ("safesearch", safesearch);
    ("order", order);
    ("page", page);
    ("per_page", per_page);
    ("callback", callback);
    ("pretty", pretty)
  ] in
  o ← this;
  resp ← get E (root_url o) payload;
  if decide (status_code resp = 200)
  then json E resp
  else raise (ValueError (text resp)).

End Search.

End Image.

(** ** class Video *)

Module Video.

(** A call of [Video.search]; there is no [orientation] and no [colors],
    and [video_type] stands where [Image.search] has [image_type]. *)
Record Args : Type := {
  q : option PyVal;
  lang : option PyVal;
  id : option PyVal;
  video_type : option PyVal;
  category : option PyVal;
  min_width : option PyVal;
  min_height : option PyVal;
  editors_choice : option PyVal;
  safesearch : option PyVal;
  order : option PyVal;
  page : option PyVal;
  per_page : option PyVal;
  callback : option PyVal;
  pretty : option PyVal
}.

(** [Video(api_key)]: the constructor inherited from [IPixabay]. *)
Definition new (key : PyVal) : result IPixabay := IPixabay_init key.

Section Search.
Context {Json : Type} (E : Env Json).

Definition search (a : Args) : M Json :=
  let q := default (PyStr "yellow flower") (q a) in
  let lang := default (PyStr "en") (lang a) in
  let id := default (PyStr "") (id a) in
  let video_type := default (PyStr "all") (video_type a) in
  let category := default (PyStr "") (category a) in
  let min_width := default (PyInt 0) (min_width a) in
  let min_height := default (PyInt 0) (min_height a) in
  let editors_choice := default (PyStr "false") (editors_choice a) in
  let safesearch := default (PyStr "false") (safesearch a) in
  let order := default (PyStr "popular") (order a) in
  let page := default (PyInt 1) (page a) in
  let per_page := default (PyInt 20) (per_page a) in
  let callback := default (PyStr "") (callback a) in
  let pretty := default (PyStr "false") (pretty a) in
  o ← this;
  let payload : gmap string PyVal := list_to_map [
    ("key", api_key o);
    ("q", q);
    ("lang", lang);
    ("id", id);
    ("video_type", video_type);
    ("category", category);
    ("min_width", min_width);
    ("min_height", min_height);
    ("editors_choice", editors_choice);
    ("safesearch", safesearch);
    ("order", order);
    ("page", page);
    ("per_page", per_page);
    ("callback", callback);
    ("pretty", pretty)
  ] in
  o ← this;
  resp ← get E (root_url o ++ "videos/") payload;
  if decide (status_code resp = 200)
  then json E resp
  else raise (ValueError (text resp)).

End Search.

End Video.

(** ** Calls without arguments *)

Definition Image_no_args : Image.Args := {|
  Image.q := None; Image.lang := None; Image.id := None;
  Image.image_type := None; Image.orientation := None;
  Image.category := None; Image.min_width := None;
  Image.min_height := None; Image.colors := None;
  Image.editors_choice := None; Image.safesearch := None;
  Image.order := None; Image.page := None; Image.per_page := None;
  Image.callback := None; Image.pretty := None |}.

Definition Video_no_args : Video.Args := {|
  Video.q := None; Video.lang := None; Video.id := None;
  Video.video_type := None; Video.category := None;
  Video.min_width := None; Video.min_height := None;
  Video.editors_choice := None; Video.safesearch := None;
  Video.order := None; Video.page := None; Video.per_page := None;
  Video.callback := None; Video.pretty := None |}.

(** ** What one call does, in closed form *)

(** The request [Image.search] builds from the receiver and the call. *)
Definition Image_request (o : IPixabay) (a : Image.Args) : Request := {|
  url := root_url o;
  params := list_to_map [
    ("key", api_key o);
    ("q", default (PyStr "yellow flower") (Image.q a));
    ("lang", default (PyStr "en") (Image.lang a));
    ("id", default (PyStr "") (Image.id a));
    ("image_type", default (PyStr "all") (Image.image_type a));
    ("orientation", default (PyStr "all") (Image.orientation a));
    ("category", default (PyStr "") (Image.category a));
    ("min_width", default (PyInt 0) (Image.min_width a));
    ("min_height", default (PyInt 0) (Image.min_height a));
    ("colors", default (PyStr "") (Image.colors a));
    ("editors_choice", default (PyStr "false") (Image.editors_choice a));
    ("safesearch", default (PyStr "false") (Image.safesearch a));
    ("order", default (PyStr "popular") (Image.order a));
    ("page", default (PyInt 1) (Image.page a));
    ("per_page", default (PyInt 20) (Image.per_page a));
    ("callback", default (PyStr "") (Image.callback a));
    ("pretty", default (PyStr "false") (Image.pretty a))
  ] |}.

(** The request [Video.search] builds from the receiver and the call. *)
Definition Video_request (o : IPixabay) (a : Video.Args) : Request := {|
  url := root_url o ++ "videos/";
  params := list_to_map [
    ("key", api_key o);
    ("q", default (PyStr "yellow flower") (Video.q a));
    ("lang", default (PyStr "en") (Video.lang a));
    ("id", default (PyStr "") (Video.id a));
    ("video_type", default (PyStr "all") (Video.video_type a));
    ("category", default (PyStr "") (Video.category a));
    ("min_width", default (PyInt 0) (Video.min_width a));
    ("min_height", default (PyInt 0) (Video.min_height a));
    ("editors_choice", default (PyStr "false") (Video.editors_choice a));
    ("safesearch", default (PyStr "false") (Video.safesearch a));
    ("order", default (PyStr "popular") (Video.order a));
    ("page", default (PyInt 1) (Video.page a));
    ("per_page", default (PyInt 20) (Video.per_page a));
    ("callback", default (PyStr "") (Video.callback a));
    ("pretty", default (PyStr "false") (Video.pretty a))
  ] |}.

(** How both methods turn the answer of the network into an outcome. *)
Definition outcome_of {Json : Type} (E : Env Json)
    (answer : option Response) : result Json :=
  match answer with
  | None => Raise ConnectionError
  | Some resp =>
      if decide (status_code resp = 200)
      then match loads E (text resp) with
           | Some j => Return j
           | None => Raise JSONDecodeError
           end
      else Raise (ValueError (text resp))
  end.

(** The world after one more request. *)
Definition after (w : World) (r : Request) : World :=
  {| self := self w; sent := sent w ++ [r] |}.

(** ** Example collaborators *)

(** Parsed JSON, for the examples. *)
#[warnings="-register-all"]
Inductive JsonVal : Type :=
| JNull
| JBool (b : bool)
| JNum (n : Z)
| JStr (s : string)
| JArr (items : list JsonVal)
| JObj (members : list (string * JsonVal)).

(** A JSON reader for the few bodies the examples use.  A JSONP body such
    as [cb({})], which the remote sends when [callback] is set, is not
    JSON. *)
Definition example_loads (body : string) : option JsonVal :=
  if decide (body = "{}") then Some (JObj [])
  else if decide (body = "[]") then Some (JArr [])
  else if decide (body = "null") then Some JNull
  else if decide (body = "true") then Some (JBool true)
  else if decide (body = "false") then Some (JBool false)
  else None.

(** A network that gives the same answer to every request. *)
Definition answering (answer : option Response) : Env JsonVal :=
  {| loads := example_loads; transport := λ _ _, answer |}.

Definition ok_empty : Response := {| status_code := 200; text := "{}" |}.
Definition ok_jsonp : Response := {| status_code := 200; text := "cb({})" |}.
Definition bad_request : Response :=
  {| status_code := 400; text := "Bad request" |}.

(** A client built with the key [secret], before any request. *)
Definition example_client : IPixabay :=
  {| api_key := PyStr "secret"; root_url := "https://pixabay.com/api/" |}.
Definition example_world : World := {| self := example_client; sent := [] |}.

(** [search(q="apple", page=1)] *)
Definition Image_apple : Image.Args := {|
  Image.q := Some (PyStr "apple"); Image.lang := None; Image.id := None;
  Image.image_type := None; Image.orientation := None;
  Image.category := None; Image.min_width := None;
  Image.min_height := None; Image.colors := None;
  Image.editors_choice := None; Image.safesearch := None;
  Image.order := None; Image.page := Some (PyInt 1);
  Image.per_page := None; Image.callback := None; Image.pretty := None |}.

Definition Video_apple : Video.Args := {|
  Video.q := Some (PyStr "apple"); Video.lang := None; Video.id := None;
  Video.video_type := None; Video.category := None;
  Video.min_width := None; Video.min_height := None;
  Video.editors_choice := None; Video.safesearch := None;
  Video.order := None; Video.page := Some (PyInt 1);
  Video.per_page := None; Video.callback := None; Video.pretty := None |}.

(** [search(editors_choice=True)]: a native boolean. *)
Definition Image_native_bool : Image.Args := {|
  Image.q := None; Image.lang := None; Image.id := None;
  Image.image_type := None; Image.orientation := None;
  Image.category := None; Image.min_width := None;
  Image.min_height := None; Image.colors := None;
  Image.editors_choice := Some (PyBool true); Image.safesearch := None;
  Image.order := None; Image.page := None; Image.per_page := None;
  Image.callback := None; Image.pretty := None |}.

(** [search(min_width=-5, min_height=100000, page=0, per_page=1000)]:
    integers outside the ranges the remote accepts. *)
Definition Image_out_of_range : Image.Args := {|
  Image.q := None; Image.lang := None; Image.id := None;
  Image.image_type := None; Image.orientation := None;
  Image.category := None; Image.min_width := Some (PyInt (-5));
  Image.min_height := Some (PyInt 100000); Image.colors := None;
  Image.editors_choice := None; Image.safesearch := None;
  Image.order := None; Image.page := Some (PyInt 0);
  Image.per_page := Some (PyInt 1000);
  Image.callback := None; Image.pretty := None |}.

Definition Video_out_of_range : Video.Args := {|
  Video.q := None; Video.lang := None; Video.id := None;
  Video.video_type := None; Video.category := None;
  Video.min_width := Some (PyInt (-5));
  Video.min_height := Some (PyInt 100000);
  Video.editors_choice := None; Video.safesearch := None;
  Video.order := None; Video.page := Some (PyInt 0);
  Video.per_page := Some (PyInt 1000);
  Video.callback := None; Video.pretty := None |}.

(** [search(callback="cb")]: asks the remote for a JSONP answer. *)
Definition Image_jsonp : Image.Args := {|
  Image.q := None; Image.lang := None; Image.id := None;
  Image.image_type := None; Image.orientation := None;
  Image.category := None; Image.min_width := None;
  Image.min_height := None; Image.colors := None;
  Image.editors_choice := None; Image.safesearch := None;
  Image.order := None; Image.page := None; Image.per_page := None;
  Image.callback := Some (PyStr "cb"); Image.pretty := None |}.

(** [search(safesearch="true")]: a flag passed the documented way. *)
Definition Image_safe : Image.Args := {|
  Image.q := None; Image.lang := None; Image.id := None;
  Image.image_type := None; Image.orientation := None;
  Image.category := None; Image.min_width := None;
  Image.min_height := None; Image.colors := None;
  Image.editors_choice := None; Image.safesearch := Some (PyStr "true");
  Image.order := None; Image.page := None; Image.per_page := None;
  Image.callback := None; Image.pretty := None |}.

Definition Video_safe : Video.Args := {|
  Video.q := None; Video.lang := None; Video.id := None;
  Video.video_type := None; Video.category := None;
  Video.min_width := None; Video.min_height := None;
  Video.editors_choice := None; Video.safesearch := Some (PyStr "true");
  Video.order := None; Video.page := None; Video.per_page := None;
  Video.callback := None; Video.pretty := None |}.

(** ** Vocabulary of the statements *)

(** Either of the two searches, for what holds of both alike. *)
Inductive Call : Type :=
| ImageCall (a : Image.Args)
| VideoCall (a : Video.Args).

Definition search_of {Json : Type} (E : Env Json) (c : Call) : M Json :=
  match c with
  | ImageCall a => Image.search E a
  | VideoCall a => Video.search E a
  end.

Definition new_of (c : Call) : PyVal → result IPixabay :=
  match c with
  | ImageCall _ => Image.new
  | VideoCall _ => Video.new
  end.

(** The request either search builds. *)
Definition request_of (o : IPixabay) (c : Call) : Request :=
  match c with
  | ImageCall a => Image_request o a
  | VideoCall a => Video_request o a
  end.

(** A payload entry is resolved from what the caller passed and the
    documented default: the passed value if there is one, the default
    otherwise. *)
Definition resolved (passed : option PyVal) (dflt : PyVal)
    (entry : option PyVal) : Prop :=
  (∀ v, passed = Some v → entry = Some v) ∧
  (passed = None → entry = Some dflt).

(** The two strings the remote reads as booleans. *)
Definition wire_bool (v : PyVal) : Prop :=
  v = PyStr "true" ∨ v = PyStr "false".

(** The caller left the flag out or passed one of the two strings. *)
Definition flag_as_string (passed : option PyVal) : Prop :=
  ∀ v, passed = Some v → wire_bool v.

(** ** The rest of the module *)

(** [IPixabay.search]: the abstract method; its body is [pass], so a
    direct call returns [None] and does nothing else. *)
Definition IPixabay_search : M PyVal := mret PyNone.

(** A caller that makes one call after the other on the same client and
    goes on whatever the outcome of a call was. *)
Definition calls_in_turn {Json : Type} (E : Env Json) (cs : list Call)
    (w : World) : World :=
  foldl (λ w' c, (search_of E c w').2) w cs.

(** The video call that passes what an image call passes: [image_type]
    goes to [video_type], [orientation] and [colors] have no place. *)
Definition as_video (a : Image.Args) : Video.Args := {|
  Video.q := Image.q a; Video.lang := Image.lang a; Video.id := Image.id a;
  Video.video_type := Image.image_type a;
  Video.category := Image.category a;
  Video.min_width := Image.min_width a;
  Video.min_height := Image.min_height a;
  Video.editors_choice := Image.editors_choice a;
  Video.safesearch := Image.safesearch a;
  Video.order := Image.order a; Video.page := Image.page a;
  Video.per_page := Image.per_page a;
  Video.callback := Image.callback a; Video.pretty := Image.pretty a |}.

(** The call that passes every parameter, with the value the signature
    of [Image.search] binds it to in the call [a]. *)
Definition Image_explicit (a : Image.Args) : Image.Args := {|
  Image.q := Some (default (PyStr "yellow flower") (Image.q a));
  Image.lang := Some (default (PyStr "en") (Image.lang a));
  Image.id := Some (default (PyStr "") (Image.id a));
  Image.image_type := Some (default (PyStr "all") (Image.image_type a));
  Image.orientation := Some (default (PyStr "all") (Image.orientation a));
  Image.category := Some (default (PyStr "") (Image.category a));
  Image.min_width := Some (default (PyInt 0) (Image.min_width a));
  Image.min_height := Some (default (PyInt 0) (Image.min_height a));
  Image.colors := Some (default (PyStr "") (Image.colors a));
  Image.editors_choice :=
    Some (default (PyStr "false") (Image.editors_choice a));
  Image.safesearch := Some (default (PyStr "false") (Image.safesearch a));
  Image.order := Some (default (PyStr "popular") (Image.order a));
  Image.page := Some (default (PyInt 1) (Image.page a));
  Image.per_page := Some (default (PyInt 20) (Image.per_page a));
  Image.callback := Some (default (PyStr "") (Image.callback a));
  Image.pretty := Some (default (PyStr "false") (Image.pretty a)) |}.

(** The same for [Video.search]. *)
Definition Video_explicit (a : Video.Args) : Video.Args := {|
  Video.q := Some (default (PyStr "yellow flower") (Video.q a));
  Video.lang := Some (default (PyStr "en") (Video.lang a));
  Video.id := Some (default (PyStr "") (Video.id a));
  Video.video_type := Some (default (PyStr "all") (Video.video_type a));
  Video.category := Some (default (PyStr "") (Video.category a));
  Video.min_width := Some (default (PyInt 0) (Video.min_width a));
  Video.min_height := Some (default (PyInt 0) (Video.min_height a));
  Video.editors_choice :=
    Some (default (PyStr "false") (Video.editors_choice a));
  Video.safesearch := Some (default (PyStr "false") (Video.safesearch a));
  Video.order := Some (default (PyStr "popular") (Video.order a));
  Video.page := Some (default (PyInt 1) (Video.page a));
  Video.per_page := Some (default (PyInt 20) (Video.per_page a));
  Video.callback := Some (default (PyStr "") (Video.callback a));
  Video.pretty := Some (default (PyStr "false") (Video.pretty a)) |}.

(** A world in which the example client has already made one request. *)
Definition example_world_later : World :=
  {| self := example_client;
     sent := [Image_request example_client Image_jsonp] |}.

(** ** Lemmas about single calls *)

Section Runs.
Context {Json : Type} (E : Env Json).

Lemma Image_search_run (a : Image.Args) (w : World) :
  Image.search E a w =
    (outcome_of E (transport E (sent w) (Image_request (self w) a)),
     after w (Image_request (self w) a)).
Proof.
  unfold Image.search, outcome_of, after, Image_request, this, get, json,
    raise, mbind, M_bind, mret, M_ret; cbv beta iota zeta.
  destruct (transport E _ _) as [resp|]; [|reflexivity].
  destruct (decide _); [|reflexivity].
  destruct (loads E _); reflexivity.
Qed.

Lemma Video_search_run (a : Video.Args) (w : World) :
  Video.search E a w =
    (outcome_of E (transport E (sent w) (Video_request (self w) a)),
     after w (Video_request (self w) a)).
Proof.
  unfold Video.search, outcome_of, after, Video_request, this, get, json,
    raise, mbind, M_bind, mret, M_ret; cbv beta iota zeta.
  destruct (transport E _ _) as [resp|]; [|reflexivity].
  destruct (decide _); [|reflexivity].
  destruct (loads E _); reflexivity.
Qed.

Lemma issued_after {A : Type} (m : M A) (w : World) (r : Request) :
  (m w).2 = after w r → issued m w = [r].
Proof.
  intros H. unfold issued. rewrite H. simpl.
  rewrite drop_app_length. reflexivity.
Qed.

Lemma Image_issued (a : Image.Args) (w : World) :
  issued (Image.search E a) w = [Image_request (self w) a].
Proof. apply issued_after. rewrite Image_search_run. reflexivity. Qed.

Lemma Video_issued (a : Video.Args) (w : World) :
  issued (Video.search E a) w = [Video_request (self w) a].
Proof. apply issued_after. rewrite Video_search_run. reflexivity. Qed.

End Runs.

Section Calls.
Context {Json : Type} (E : Env Json).

Lemma search_of_run (c : Call) (w : World) :
  search_of E c w =
    (outcome_of E (transport E (sent w) (request_of (self w) c)),
     after w (request_of (self w) c)).
Proof. destruct c; [apply Image_search_run | apply Video_search_run]. Qed.

Lemma search_of_issued (c : Call) (w : World) :
  issued (search_of E c) w = [request_of (self w) c].
Proof. apply issued_after. rewrite search_of_run. reflexivity. Qed.

Lemma request_of_key (o : IPixabay) (c : Call) :
  params (request_of o c) !! "key" = Some (api_key o).
Proof. destruct c; reflexivity. Qed.

End Calls.

Lemma resolved_default (passed : option PyVal) (dflt : PyVal) :
  resolved passed dflt (Some (default dflt passed)).
Proof. split; intros; subst; reflexivity. Qed.

Lemma init_inv (key : PyVal) (o : IPixabay) :
  IPixabay_init key = Return o →
  api_key o = key ∧ root_url o = "https://pixabay.com/api/".
Proof. intros [= <-]. split; reflexivity. Qed.

Lemma new_of_inv (c : Call) (key : PyVal) (o : IPixabay) :
  new_of c key = Return o →
  api_key o = key ∧ root_url o = "https://pixabay.com/api/".
Proof. destruct c; apply init_inv. Qed.

(** The scenario of the docstring, [image.search(q="apple", page=1)],
    against a remote that answers 200 with an empty object. *)
Example search_apple_request :
  issued (Image.search (answering (Some ok_empty)) Image_apple)
    example_world =
  [ {| url := "https://pixabay.com/api/";
       params := list_to_map [
         ("key", PyStr "secret"); ("q", PyStr "apple"); ("lang", PyStr "en");
         ("id", PyStr ""); ("image_type", PyStr "all");
         ("orientation", PyStr "all"); ("category", PyStr "");
         ("min_width", PyInt 0); ("min_height", PyInt 0);
         ("colors", PyStr ""); ("editors_choice", PyStr "false");
         ("safesearch", PyStr "false"); ("order", PyStr "popular");
         ("page", PyInt 1); ("per_page", PyInt 20); ("callback", PyStr "");
         ("pretty", PyStr "false") ] |} ].
Proof. reflexivity. Qed.

Example search_apple_result :
  (Image.search (answering (Some ok_empty)) Image_apple example_world).1 =
    Return (JObj []).
Proof. reflexivity. Qed.

(** The same call for videos against a remote that answers 400. *)
Example video_apple_bad_request :
  (Video.search (answering (Some bad_request)) Video_apple example_world).1 =
    Raise (ValueError "Bad request") ∧
  url <$> issued (Video.search (answering (Some bad_request)) Video_apple)
    example_world = ["https://pixabay.com/api/videos/"].
Proof. split; reflexivity. Qed.

(** No answer at all: the exception of the transport leaves [search],
    after the one request. *)
Example search_apple_offline :
  Image.search (answering None) Image_apple example_world =
    (Raise ConnectionError,
     {| self := example_client;
        sent := [Image_request example_client Image_apple] |}).
Proof. reflexivity. Qed.

Lemma flag_default (passed : option PyVal) :
  flag_as_string passed →
  ∃ v, Some (default (PyStr "false") passed) = Some v ∧ wire_bool v.
Proof.
  intros Hflag. eexists. split; [reflexivity|].
  destruct passed as [v|]; simpl; [apply Hflag; reflexivity | right; reflexivity].
Qed.

(** Splits a goal into its conjuncts without unfolding anything. *)
Ltac conjuncts :=
  repeat match goal with |- _ ∧ _ => split end.

(** ** The properties of the specification *)

(** C1, as the specification words it, fails: status 200 does not by
    itself make [search] return.  With [callback] set the remote answers
    200 with a JSONP body; [resp.json()] cannot read it, and its exception
    leaves [search] instead of a result. *)
Lemma status_200_with_unreadable_body_raises :
  ∃ r, issued (Image.search (answering (Some ok_jsonp)) Image_jsonp)
         example_world = [r] ∧
       transport (answering (Some ok_jsonp)) (sent example_world) r =
         Some ok_jsonp ∧
       status_code ok_jsonp = 200 ∧
       (Image.search (answering (Some ok_jsonp)) Image_jsonp
          example_world).1 = Raise JSONDecodeError ∧
       ¬ (∃ j, (Image.search (answering (Some ok_jsonp)) Image_jsonp
                  example_world).1 = Return j).
Proof.
  eexists. split; [apply Image_issued|].
  conjuncts; try reflexivity.
  intros [j Hj]. discriminate Hj.
Qed.

(** C1, amended.  Let [resp] be the response to the GET that either
    search made.  If its status is 200 and its body reads as JSON, the
    search returns the value read; if its status is 200 and the body does
    not read as JSON, the exception of the reader leaves the search.  If
    its status is anything but 200, the search raises [ValueError] (the
    one error the source raises itself) with the body text, unread, as
    its content. *)
Theorem search_classifies_response {Json : Type} (E : Env Json)
    (c : Call) (w : World) (r : Request) (resp : Response) :
  issued (search_of E c) w = [r] →
  transport E (sent w) r = Some resp →
  (status_code resp = 200 →
     ∀ j, loads E (text resp) = Some j → (search_of E c w).1 = Return j) ∧
  (status_code resp = 200 →
     loads E (text resp) = None →
     (search_of E c w).1 = Raise JSONDecodeError) ∧
  (status_code resp ≠ 200 →
     (search_of E c w).1 = Raise (ValueError (text resp))).
Proof.
  intros Hissued Hresp.
  rewrite search_of_issued in Hissued. injection Hissued as <-.
  rewrite search_of_run. simpl. rewrite Hresp. unfold outcome_of.
  conjuncts.
  - intros H200 j Hj. rewrite decide_True by exact H200.
    rewrite Hj. reflexivity.
  - intros H200 Hnone. rewrite decide_True by exact H200.
    rewrite Hnone. reflexivity.
  - intros Hother. rewrite decide_False by exact Hother. reflexivity.
Qed.

Lemma search_classifies_response_witness :
  (issued (search_of (answering (Some bad_request)) (ImageCall Image_apple))
     example_world = [Image_request example_client Image_apple] ∧
   transport (answering (Some bad_request)) (sent example_world)
     (Image_request example_client Image_apple) = Some bad_request ∧
   status_code bad_request ≠ 200 ∧
   (Image.search (answering (Some bad_request)) Image_apple
      example_world).1 = Raise (ValueError "Bad request")) ∧
  (issued (search_of (answering (Some ok_empty)) (VideoCall Video_apple))
     example_world = [Video_request example_client Video_apple] ∧
   transport (answering (Some ok_empty)) (sent example_world)
     (Video_request example_client Video_apple) = Some ok_empty ∧
   status_code ok_empty = 200 ∧
   loads (answering (Some ok_empty)) (text ok_empty) = Some (JObj []) ∧
   (Video.search (answering (Some ok_empty)) Video_apple
      example_world).1 = Return (JObj [])).
Proof.
  split.
  - assert (Hissued :
      issued (search_of (answering (Some bad_request))
                (ImageCall Image_apple)) example_world =
        [Image_request example_client Image_apple]) by reflexivity.
    assert (Hne : status_code bad_request ≠ 200) by (simpl; lia).
    conjuncts; [exact Hissued | reflexivity | exact Hne |].
    apply (search_classifies_response (answering (Some bad_request))
             (ImageCall Image_apple) example_world _ bad_request
             Hissued eq_refl).
    exact Hne.
  - assert (Hissued :
      issued (search_of (answering (Some ok_empty))
                (VideoCall Video_apple)) example_world =
        [Video_request example_client Video_apple]) by reflexivity.
    conjuncts; [exact Hissued | reflexivity | reflexivity | reflexivity |].
    apply (search_classifies_response (answering (Some ok_empty))
             (VideoCall Video_apple) example_world _ ok_empty
             Hissued eq_refl); reflexivity.
Defined.

(** C2.  For every client, [search()] without arguments sends exactly
    the documented default table, together with the key of the client;
    for videos the table has [video_type] and lacks [orientation] and
    [colors]. *)
Theorem no_arguments_send_default_table {Json : Type} (E : Env Json)
    (w : World) :
  params <$> issued (Image.search E Image_no_args) w = [ list_to_map [
    ("q", PyStr "yellow flower"); ("lang", PyStr "en"); ("id", PyStr "");
    ("image_type", PyStr "all"); ("orientation", PyStr "all");
    ("category", PyStr ""); ("min_width", PyInt 0); ("min_height", PyInt 0);
    ("colors", PyStr ""); ("editors_choice", PyStr "false");
    ("safesearch", PyStr "false"); ("order", PyStr "popular");
    ("page", PyInt 1); ("per_page", PyInt 20); ("callback", PyStr "");
    ("pretty", PyStr "false"); ("key", api_key (self w)) ] ] ∧
  params <$> issued (Video.search E Video_no_args) w = [ list_to_map [
    ("q", PyStr "yellow flower"); ("lang", PyStr "en"); ("id", PyStr "");
    ("video_type", PyStr "all");
    ("category", PyStr ""); ("min_width", PyInt 0); ("min_height", PyInt 0);
    ("editors_choice", PyStr "false");
    ("safesearch", PyStr "false"); ("order", PyStr "popular");
    ("page", PyInt 1); ("per_page", PyInt 20); ("callback", PyStr "");
    ("pretty", PyStr "false"); ("key", api_key (self w)) ] ].
Proof.
  rewrite Image_issued, Video_issued. split; reflexivity.
Qed.

(** C3.  Whatever subset of the parameters a call passes, the one
    request it sends carries every parameter: with the passed value where
    one was passed, with the documented default where none was.  The
    payload has exactly the documented names, so nothing is missing. *)
Theorem passed_values_override_defaults {Json : Type} (E : Env Json)
    (w : World) (ia : Image.Args) (va : Video.Args) :
  (∃ r, issued (Image.search E ia) w = [r] ∧
     resolved (Image.q ia) (PyStr "yellow flower") (params r !! "q") ∧
     resolved (Image.lang ia) (PyStr "en") (params r !! "lang") ∧
     resolved (Image.id ia) (PyStr "") (params r !! "id") ∧
     resolved (Image.image_type ia) (PyStr "all") (params r !! "image_type") ∧
     resolved (Image.orientation ia) (PyStr "all")
       (params r !! "orientation") ∧
     resolved (Image.category ia) (PyStr "") (params r !! "category") ∧
     resolved (Image.min_width ia) (PyInt 0) (params r !! "min_width") ∧
     resolved (Image.min_height ia) (PyInt 0) (params r !! "min_height") ∧
     resolved (Image.colors ia) (PyStr "") (params r !! "colors") ∧
     resolved (Image.editors_choice ia) (PyStr "false")
       (params r !! "editors_choice") ∧
     resolved (Image.safesearch ia) (PyStr "false")
       (params r !! "safesearch") ∧
     resolved (Image.order ia) (PyStr "popular") (params r !! "order") ∧
     resolved (Image.page ia) (PyInt 1) (params r !! "page") ∧
     resolved (Image.per_page ia) (PyInt 20) (params r !! "per_page") ∧
     resolved (Image.callback ia) (PyStr "") (params r !! "callback") ∧
     resolved (Image.pretty ia) (PyStr "false") (params r !! "pretty") ∧
     dom (params r) = list_to_set [
       "key"; "q"; "lang"; "id"; "image_type"; "orientation"; "category";
       "min_width"; "min_height"; "colors"; "editors_choice"; "safesearch";
       "order"; "page"; "per_page"; "callback"; "pretty" ]) ∧
  (∃ r, issued (Video.search E va) w = [r] ∧
     resolved (Video.q va) (PyStr "yellow flower") (params r !! "q") ∧
     resolved (Video.lang va) (PyStr "en") (params r !! "lang") ∧
     resolved (Video.id va) (PyStr "") (params r !! "id") ∧
     resolved (Video.video_type va) (PyStr "all") (params r !! "video_type") ∧
     resolved (Video.category va) (PyStr "") (params r !! "category") ∧
     resolved (Video.min_width va) (PyInt 0) (params r !! "min_width") ∧
     resolved (Video.min_height va) (PyInt 0) (params r !! "min_height") ∧
     resolved (Video.editors_choice va) (PyStr "false")
       (params r !! "editors_choice") ∧
     resolved (Video.safesearch va) (PyStr "false")
       (params r !! "safesearch") ∧
     resolved (Video.order va) (PyStr "popular") (params r !! "order") ∧
     resolved (Video.page va) (PyInt 1) (params r !! "page") ∧
     resolved (Video.per_page va) (PyInt 20) (params r !! "per_page") ∧
     resolved (Video.callback va) (PyStr "") (params r !! "callback") ∧
     resolved (Video.pretty va) (PyStr "false") (params r !! "pretty") ∧
     dom (params r) = list_to_set [
       "key"; "q"; "lang"; "id"; "video_type"; "category";
       "min_width"; "min_height"; "editors_choice"; "safesearch";
       "order"; "page"; "per_page"; "callback"; "pretty" ]).
Proof.
  split.
  - exists (Image_request (self w) ia). split; [apply Image_issued|].
    conjuncts; first [apply resolved_default | reflexivity].
  - exists (Video_request (self w) va). split; [apply Video_issued|].
    conjuncts; first [apply resolved_default | reflexivity].
Qed.

Lemma passed_values_override_defaults_witness :
  Image.q Image_apple = Some (PyStr "apple") ∧
  Image.lang Image_apple = None ∧
  ∃ r, issued (Image.search (answering (Some ok_empty)) Image_apple)
         example_world = [r] ∧
       params r !! "q" = Some (PyStr "apple") ∧
       params r !! "lang" = Some (PyStr "en").
Proof.
  destruct (passed_values_override_defaults (answering (Some ok_empty))
              example_world Image_apple Video_apple)
    as [(r & Hr & [Hq _] & [_ Hlang] & _) _].
  split; [reflexivity|]. split; [reflexivity|].
  exists r. split; [exact Hr|]. split.
  - apply Hq. reflexivity.
  - apply Hlang. reflexivity.
Defined.

(** C4.  For every key string given to the constructor and every call,
    the request of image search and of video search carries the entry
    ["key"], and its value is the string given at construction. *)
Theorem api_key_is_sent_as_key {Json : Type} (E : Env Json) (c : Call)
    (key : string) (o : IPixabay) (log : list Request) :
  new_of c (PyStr key) = Return o →
  ∃ r, issued (search_of E c) {| self := o; sent := log |} = [r] ∧
       params r !! "key" = Some (PyStr key).
Proof.
  intros Hnew. apply new_of_inv in Hnew as [Hkey _].
  eexists. split; [apply search_of_issued|].
  rewrite request_of_key. simpl. rewrite Hkey. reflexivity.
Qed.

Lemma api_key_is_sent_as_key_witness :
  Image.new (PyStr "secret") = Return example_client ∧
  ∃ r, issued (Image.search (answering (Some ok_empty)) Image_apple)
         {| self := example_client; sent := [] |} = [r] ∧
       params r !! "key" = Some (PyStr "secret").
Proof.
  split; [reflexivity|].
  apply (api_key_is_sent_as_key (answering (Some ok_empty))
           (ImageCall Image_apple) "secret" example_client []).
  reflexivity.
Defined.

(** C5.  Image search requests the stored base URL itself and video
    search requests it with ["videos/"] appended, whatever the call
    passes; for a client as the constructor built it these are the two
    constants ["https://pixabay.com/api/"] and
    ["https://pixabay.com/api/videos/"]. *)
Theorem target_url_is_fixed {Json : Type} (E : Env Json)
    (ia : Image.Args) (va : Video.Args) :
  (∀ w, url <$> issued (Image.search E ia) w = [root_url (self w)]) ∧
  (∀ w, url <$> issued (Video.search E va) w =
          [root_url (self w) ++ "videos/"]) ∧
  (∀ key o log, Image.new key = Return o →
     url <$> issued (Image.search E ia) {| self := o; sent := log |} =
       ["https://pixabay.com/api/"]) ∧
  (∀ key o log, Video.new key = Return o →
     url <$> issued (Video.search E va) {| self := o; sent := log |} =
       ["https://pixabay.com/api/videos/"]).
Proof.
  conjuncts.
  - intros w. rewrite Image_issued. reflexivity.
  - intros w. rewrite Video_issued. reflexivity.
  - intros key o log [_ Hroot]%init_inv.
    rewrite Image_issued. simpl. rewrite Hroot. reflexivity.
  - intros key o log [_ Hroot]%init_inv.
    rewrite Video_issued. simpl. rewrite Hroot. reflexivity.
Qed.

Lemma target_url_is_fixed_witness :
  Image.new (PyStr "secret") = Return example_client ∧
  Video.new (PyStr "secret") = Return example_client ∧
  url <$> issued (Image.search (answering (Some ok_empty)) Image_apple)
    {| self := example_client; sent := [] |} =
    ["https://pixabay.com/api/"] ∧
  url <$> issued (Video.search (answering (Some ok_empty)) Video_apple)
    {| self := example_client; sent := [] |} =
    ["https://pixabay.com/api/videos/"].
Proof.
  pose proof (target_url_is_fixed (answering (Some ok_empty))
                Image_apple Video_apple) as (_ & _ & Hi & Hv).
  split; [reflexivity|]. split; [reflexivity|]. split.
  - apply (Hi (PyStr "secret")). reflexivity.
  - apply (Hv (PyStr "secret")). reflexivity.
Defined.

(** C6, as the specification words it, fails: a native boolean passed
    for [editors_choice] is put into the payload as it is, and what is
    sent is neither the string ["true"] nor the string ["false"]. *)
Lemma native_boolean_is_sent_as_boolean :
  ∃ r, issued (Image.search (answering (Some ok_empty)) Image_native_bool)
         example_world = [r] ∧
       params r !! "editors_choice" = Some (PyBool true) ∧
       ¬ (∃ v, params r !! "editors_choice" = Some v ∧ wire_bool v).
Proof.
  eexists. split; [apply Image_issued|]. split; [reflexivity|].
  intros (v & Hv & [-> | ->]); discriminate Hv.
Qed.

(** C6, amended.  Each of [editors_choice], [safesearch] and [pretty] is
    sent exactly as the caller passed it, and as the string ["false"]
    when left out; so whenever the caller passes one of the strings
    ["true"] and ["false"] or leaves the flag out, one of these two
    strings is sent. *)
Theorem flags_are_sent_as_passed {Json : Type} (E : Env Json)
    (w : World) (ia : Image.Args) (va : Video.Args) :
  (∃ r, issued (Image.search E ia) w = [r] ∧
     resolved (Image.editors_choice ia) (PyStr "false")
       (params r !! "editors_choice") ∧
     resolved (Image.safesearch ia) (PyStr "false")
       (params r !! "safesearch") ∧
     resolved (Image.pretty ia) (PyStr "false") (params r !! "pretty") ∧
     (flag_as_string (Image.editors_choice ia) →
        ∃ v, params r !! "editors_choice" = Some v ∧ wire_bool v) ∧
     (flag_as_string (Image.safesearch ia) →
        ∃ v, params r !! "safesearch" = Some v ∧ wire_bool v) ∧
     (flag_as_string (Image.pretty ia) →
        ∃ v, params r !! "pretty" = Some v ∧ wire_bool v)) ∧
  (∃ r, issued (Video.search E va) w = [r] ∧
     resolved (Video.editors_choice va) (PyStr "false")
       (params r !! "editors_choice") ∧
     resolved (Video.safesearch va) (PyStr "false")
       (params r !! "safesearch") ∧
     resolved (Video.pretty va) (PyStr "false") (params r !! "pretty") ∧
     (flag_as_string (Video.editors_choice va) →
        ∃ v, params r !! "editors_choice" = Some v ∧ wire_bool v) ∧
     (flag_as_string (Video.safesearch va) →
        ∃ v, params r !! "safesearch" = Some v ∧ wire_bool v) ∧
     (flag_as_string (Video.pretty va) →
        ∃ v, params r !! "pretty" = Some v ∧ wire_bool v)).
Proof.
  split.
  - exists (Image_request (self w) ia). split; [apply Image_issued|].
    conjuncts; first [apply resolved_default | apply flag_default].
  - exists (Video_request (self w) va). split; [apply Video_issued|].
    conjuncts; first [apply resolved_default | apply flag_default].
Qed.

Lemma flags_are_sent_as_passed_witness :
  flag_as_string (Image.safesearch Image_safe) ∧
  flag_as_string (Video.safesearch Video_safe) ∧
  (∃ r, issued (Image.search (answering (Some ok_empty)) Image_safe)
          example_world = [r] ∧
        ∃ v, params r !! "safesearch" = Some v ∧ wire_bool v) ∧
  (∃ r, issued (Video.search (answering (Some ok_empty)) Video_safe)
          example_world = [r] ∧
        ∃ v, params r !! "safesearch" = Some v ∧ wire_bool v).
Proof.
  destruct (flags_are_sent_as_passed (answering (Some ok_empty))
              example_world Image_safe Video_safe)
    as [(ri & Hri & _ & _ & _ & _ & Hi & _) (rv & Hrv & _ & _ & _ & _ & Hv & _)].
  assert (Htrue : flag_as_string (Some (PyStr "true")))
    by (intros v [= <-]; left; reflexivity).
  split; [exact Htrue|]. split; [exact Htrue|]. split.
  - exists ri. split; [exact Hri | apply Hi; exact Htrue].
  - exists rv. split; [exact Hrv | apply Hv; exact Htrue].
Defined.

(** C7.  An integer passed as [min_width], [min_height], [page] or
    [per_page] reaches the payload as that very integer, whatever its
    size or sign: the request goes out, nothing is clamped, checked or
    rejected on the way. *)
Theorem integers_are_forwarded_unchanged {Json : Type} (E : Env Json)
    (w : World) (ia : Image.Args) (va : Video.Args) (n : Z) :
  (∃ r, issued (Image.search E ia) w = [r] ∧
     (Image.min_width ia = Some (PyInt n) →
        params r !! "min_width" = Some (PyInt n)) ∧
     (Image.min_height ia = Some (PyInt n) →
        params r !! "min_height" = Some (PyInt n)) ∧
     (Image.page ia = Some (PyInt n) →
        params r !! "page" = Some (PyInt n)) ∧
     (Image.per_page ia = Some (PyInt n) →
        params r !! "per_page" = Some (PyInt n))) ∧
  (∃ r, issued (Video.search E va) w = [r] ∧
     (Video.min_width va = Some (PyInt n) →
        params r !! "min_width" = Some (PyInt n)) ∧
     (Video.min_height va = Some (PyInt n) →
        params r !! "min_height" = Some (PyInt n)) ∧
     (Video.page va = Some (PyInt n) →
        params r !! "page" = Some (PyInt n)) ∧
     (Video.per_page va = Some (PyInt n) →
        params r !! "per_page" = Some (PyInt n))).
Proof.
  split.
  - exists (Image_request (self w) ia). split; [apply Image_issued|].
    conjuncts; intros H;
      [ change (params (Image_request (self w) ia) !! "min_width")
          with (Some (default (PyInt 0) (Image.min_width ia)))
      | change (params (Image_request (self w) ia) !! "min_height")
          with (Some (default (PyInt 0) (Image.min_height ia)))
      | change (params (Image_request (self w) ia) !! "page")
          with (Some (default (PyInt 1) (Image.page ia)))
      | change (params (Image_request (self w) ia) !! "per_page")
          with (Some (default (PyInt 20) (Image.per_page ia))) ];
      rewrite H; reflexivity.
  - exists (Video_request (self w) va). split; [apply Video_issued|].
    conjuncts; intros H;
      [ change (params (Video_request (self w) va) !! "min_width")
          with (Some (default (PyInt 0) (Video.min_width va)))
      | change (params (Video_request (self w) va) !! "min_height")
          with (Some (default (PyInt 0) (Video.min_height va)))
      | change (params (Video_request (self w) va) !! "page")
          with (Some (default (PyInt 1) (Video.page va)))
      | change (params (Video_request (self w) va) !! "per_page")
          with (Some (default (PyInt 20) (Video.per_page va))) ];
      rewrite H; reflexivity.
Qed.

Lemma integers_are_forwarded_unchanged_witness :
  Image.per_page Image_out_of_range = Some (PyInt 1000) ∧
  Video.per_page Video_out_of_range = Some (PyInt 1000) ∧
  (∃ r, issued (Image.search (answering (Some ok_empty)) Image_out_of_range)
          example_world = [r] ∧
        params r !! "per_page" = Some (PyInt 1000)) ∧
  (∃ r, issued (Video.search (answering (Some ok_empty)) Video_out_of_range)
          example_world = [r] ∧
        params r !! "per_page" = Some (PyInt 1000)).
Proof.
  destruct (integers_are_forwarded_unchanged (answering (Some ok_empty))
              example_world Image_out_of_range Video_out_of_range 1000)
    as [(ri & Hri & _ & _ & _ & Hi) (rv & Hrv & _ & _ & _ & Hv)].
  split; [reflexivity|]. split; [reflexivity|]. split.
  - exists ri. split; [exact Hri | apply Hi; reflexivity].
  - exists rv. split; [exact Hrv | apply Hv; reflexivity].
Defined.

(** C8.  Every call of either search makes exactly one GET request,
    whether the remote answers 200, answers anything else, or does not
    answer at all; apart from that one entry in the log the world is as
    it was. *)
Theorem exactly_one_request_per_call {Json : Type} (E : Env Json)
    (c : Call) (w : World) :
  length (issued (search_of E c) w) = 1%nat ∧
  ∃ r, (search_of E c w).2 = {| self := self w; sent := sent w ++ [r] |}.
Proof.
  split.
  - rewrite search_of_issued. reflexivity.
  - exists (request_of (self w) c). rewrite search_of_run. reflexivity.
Qed.

(** C9.  A call of either search leaves the client as the constructor
    built it, whether the call returns or raises: the stored key is still
    the key given at construction and the stored base URL is still the
    fixed root. *)
Theorem search_leaves_client_untouched {Json : Type} (E : Env Json)
    (c : Call) (key : PyVal) (o : IPixabay) (log : list Request) :
  new_of c key = Return o →
  self (search_of E c {| self := o; sent := log |}).2 = o ∧
  api_key (self (search_of E c {| self := o; sent := log |}).2) = key ∧
  root_url (self (search_of E c {| self := o; sent := log |}).2) =
    "https://pixabay.com/api/".
Proof.
  intros [Hkey Hroot]%new_of_inv.
  rewrite search_of_run. simpl. auto.
Qed.

Lemma search_leaves_client_untouched_witness :
  Video.new (PyStr "secret") = Return example_client ∧
  self (Video.search (answering (Some bad_request)) Video_apple
          {| self := example_client; sent := [] |}).2 = example_client ∧
  api_key (self (Video.search (answering (Some bad_request)) Video_apple
          {| self := example_client; sent := [] |}).2) = PyStr "secret" ∧
  root_url (self (Video.search (answering (Some bad_request)) Video_apple
          {| self := example_client; sent := [] |}).2) =
    "https://pixabay.com/api/".
Proof.
  split; [reflexivity|].
  apply (search_leaves_client_untouched (answering (Some bad_request))
           (VideoCall Video_apple) (PyStr "secret") example_client []).
  reflexivity.
Defined.

(** C10.  Construction never fails and checks nothing: for every string
    given as the key, the empty one included, [Image(key)] and
    [Video(key)] yield an object that stores this very string and the
    root URL ["https://pixabay.com/api/"], the same for both classes. *)
Theorem constructor_stores_key_and_fixed_root (key : string) :
  Image.new (PyStr key) =
    Return {| api_key := PyStr key; root_url := "https://pixabay.com/api/" |} ∧
  Video.new (PyStr key) =
    Return {| api_key := PyStr key; root_url := "https://pixabay.com/api/" |} ∧
  Image.new (PyStr "") =
    Return {| api_key := PyStr ""; root_url := "https://pixabay.com/api/" |} ∧
  Video.new (PyStr key) = Image.new (PyStr key).
Proof. repeat split. Qed.

(** ** Further properties of the code *)

Lemma IPixabay_search_does_nothing (w : World) :
  IPixabay_search w = (Return PyNone, w).
Proof. reflexivity. Qed.

Section Outcomes.
Context {Json : Type} (E : Env Json).

Lemma outcome_of_return (answer : option Response) (j : Json) :
  outcome_of E answer = Return j →
  ∃ resp, answer = Some resp ∧ status_code resp = 200 ∧
          loads E (text resp) = Some j.
Proof.
  unfold outcome_of. destruct answer as [resp|]; [|discriminate].
  destruct (decide (status_code resp = 200)) as [H200|]; [|discriminate].
  destruct (loads E (text resp)) as [j'|] eqn:Hj; [|discriminate].
  intros [= <-]. exists resp. auto.
Qed.

Lemma outcome_of_connection_error (answer : option Response) :
  outcome_of E answer = Raise ConnectionError ↔ answer = None.
Proof.
  unfold outcome_of. split.
  - destruct answer as [resp|]; [|reflexivity].
    destruct (decide _); [|discriminate].
    destruct (loads E _); discriminate.
  - intros ->. reflexivity.
Qed.

Lemma issued_request_of (c : Call) (w : World) (r : Request) :
  issued (search_of E c) w = [r] → r = request_of (self w) c.
Proof. rewrite search_of_issued. intros [= <-]. reflexivity. Qed.

End Outcomes.

(** X1.  A search returns a value only after its one request was
    answered with status 200 and a body that reads as JSON, and the value
    returned is the one read: nothing is ever returned for another status,
    for an unreadable body or without an answer. *)
Theorem search_returns_only_parsed_200 {Json : Type} (E : Env Json)
    (c : Call) (w : World) (j : Json) :
  (search_of E c w).1 = Return j →
  ∃ r resp, issued (search_of E c) w = [r] ∧
            transport E (sent w) r = Some resp ∧
            status_code resp = 200 ∧
            loads E (text resp) = Some j.
Proof.
  rewrite search_of_run. simpl. intros (resp & Hresp & H200 & Hj)%outcome_of_return.
  exists (request_of (self w) c), resp.
  split; [apply search_of_issued | auto].
Qed.

Lemma search_returns_only_parsed_200_witness :
  (Image.search (answering (Some ok_empty)) Image_apple example_world).1 =
    Return (JObj []) ∧
  ∃ r resp,
    issued (search_of (answering (Some ok_empty)) (ImageCall Image_apple))
      example_world = [r] ∧
    transport (answering (Some ok_empty)) (sent example_world) r = Some resp ∧
    status_code resp = 200 ∧
    loads (answering (Some ok_empty)) (text resp) = Some (JObj []).
Proof.
  split; [reflexivity|].
  apply (search_returns_only_parsed_200 (answering (Some ok_empty))
           (ImageCall Image_apple) example_world (JObj [])).
  reflexivity.
Defined.

(** X2.  The exception of the transport leaves a search exactly when no
    response arrived for its request: the source neither catches it nor
    turns it into its own [ValueError], and raises it in no other case. *)
Theorem transport_failure_is_not_caught {Json : Type} (E : Env Json)
    (c : Call) (w : World) (r : Request) :
  issued (search_of E c) w = [r] →
  ((search_of E c w).1 = Raise ConnectionError ↔
   transport E (sent w) r = None).
Proof.
  intros ->%issued_request_of. rewrite search_of_run. simpl.
  apply outcome_of_connection_error.
Qed.

Lemma transport_failure_is_not_caught_witness :
  issued (search_of (answering None) (VideoCall Video_apple)) example_world =
    [Video_request example_client Video_apple] ∧
  transport (answering None) (sent example_world)
    (Video_request example_client Video_apple) = None ∧
  (Video.search (answering None) Video_apple example_world).1 =
    Raise ConnectionError.
Proof.
  assert (Hissued :
    issued (search_of (answering None) (VideoCall Video_apple))
      example_world = [Video_request example_client Video_apple])
    by reflexivity.
  split; [exact Hissued|]. split; [reflexivity|].
  apply (transport_failure_is_not_caught (answering None)
           (VideoCall Video_apple) example_world _ Hissued).
  reflexivity.
Defined.

(** X3.  The outcome of a search is decided by the answer to its request
    alone: two calls, be they image or video searches, with whatever
    arguments and on whatever clients, end alike when the network gives
    them the same answer. *)
Theorem outcome_depends_only_on_answer {Json : Type} (E : Env Json)
    (c1 c2 : Call) (w1 w2 : World) (r1 r2 : Request) :
  issued (search_of E c1) w1 = [r1] →
  issued (search_of E c2) w2 = [r2] →
  transport E (sent w1) r1 = transport E (sent w2) r2 →
  (search_of E c1 w1).1 = (search_of E c2 w2).1.
Proof.
  intros ->%issued_request_of ->%issued_request_of Hsame.
  rewrite !search_of_run. simpl. rewrite Hsame. reflexivity.
Qed.

Lemma outcome_depends_only_on_answer_witness :
  issued (search_of (answering (Some bad_request)) (ImageCall Image_safe))
    example_world = [Image_request example_client Image_safe] ∧
  issued (search_of (answering (Some bad_request)) (VideoCall Video_apple))
    example_world_later = [Video_request example_client Video_apple] ∧
  transport (answering (Some bad_request)) (sent example_world)
    (Image_request example_client Image_safe) =
  transport (answering (Some bad_request)) (sent example_world_later)
    (Video_request example_client Video_apple) ∧
  (Image.search (answering (Some bad_request)) Image_safe example_world).1 =
  (Video.search (answering (Some bad_request)) Video_apple
     example_world_later).1.
Proof.
  assert (H1 :
    issued (search_of (answering (Some bad_request)) (ImageCall Image_safe))
      example_world = [Image_request example_client Image_safe])
    by reflexivity.
  assert (H2 :
    issued (search_of (answering (Some bad_request)) (VideoCall Video_apple))
      example_world_later = [Video_request example_client Video_apple])
    by reflexivity.
  split; [exact H1|]. split; [exact H2|]. split; [reflexivity|].
  apply (outcome_depends_only_on_answer (answering (Some bad_request))
           (ImageCall Image_safe) (VideoCall Video_apple)
           example_world example_world_later _ _ H1 H2).
  reflexivity.
Defined.

(** X4.  The request of a search is decided by the client and the
    arguments alone: the same call on the same client sends the same
    request whatever was requested before and however the network and
    the JSON reader behave. *)
Theorem request_depends_only_on_client_and_call {J1 J2 : Type}
    (E1 : Env J1) (E2 : Env J2) (c : Call) (w1 w2 : World) :
  self w1 = self w2 →
  issued (search_of E1 c) w1 = issued (search_of E2 c) w2.
Proof.
  intros Hself. rewrite !search_of_issued, Hself. reflexivity.
Qed.

Lemma request_depends_only_on_client_and_call_witness :
  self example_world = self example_world_later ∧
  issued (search_of (answering (Some ok_empty)) (ImageCall Image_apple))
    example_world =
  issued (search_of (answering None) (ImageCall Image_apple))
    example_world_later.
Proof.
  split; [reflexivity|].
  apply (request_depends_only_on_client_and_call
           (answering (Some ok_empty)) (answering None)
           (ImageCall Image_apple) example_world example_world_later).
  reflexivity.
Defined.

Section Sequences.
Context {Json : Type} (E : Env Json).

Lemma calls_in_turn_cons (c : Call) (cs : list Call) (w : World) :
  calls_in_turn E (c :: cs) w = calls_in_turn E cs (search_of E c w).2.
Proof. reflexivity. Qed.

Lemma calls_in_turn_closed (cs : list Call) (w : World) :
  calls_in_turn E cs w =
    {| self := self w; sent := sent w ++ (request_of (self w) <$> cs) |}.
Proof.
  revert w. induction cs as [|c cs IH]; intros w.
  - simpl. rewrite app_nil_r. destruct w; reflexivity.
  - rewrite calls_in_turn_cons, IH, search_of_run. simpl.
    rewrite <- app_assoc. reflexivity.
Qed.

Lemma issued_each_alone (cs : list Call) (w : World) :
  concat ((λ c, issued (search_of E c) w) <$> cs) =
    request_of (self w) <$> cs.
Proof.
  induction cs as [|c cs IH]; [reflexivity|].
  rewrite !fmap_cons. cbn [concat]. rewrite IH, search_of_issued.
  reflexivity.
Qed.

End Sequences.

(** X5.  Calls made one after the other on one client do not influence
    each other: whatever the outcomes, the log grows by exactly the
    requests the calls would send if each were made alone, in the order of
    the calls (so a repeated call sends its request again: nothing is
    cached or remembered), every one of these requests carries the key of
    the client, and the client is the same in the end. *)
Theorem calls_in_turn_are_independent {Json : Type} (E : Env Json)
    (cs : list Call) (w : World) :
  self (calls_in_turn E cs w) = self w ∧
  sent (calls_in_turn E cs w) =
    (sent w ++ concat ((λ c, issued (search_of E c) w) <$> cs))%list ∧
  length (sent (calls_in_turn E cs w)) =
    (length (sent w) + length cs)%nat ∧
  Forall (λ r, params r !! "key" = Some (api_key (self w)))
    (drop (length (sent w)) (sent (calls_in_turn E cs w))).
Proof.
  rewrite issued_each_alone, calls_in_turn_closed. simpl.
  conjuncts.
  - reflexivity.
  - reflexivity.
  - rewrite length_app, length_fmap. reflexivity.
  - rewrite drop_app_length. apply Forall_fmap, Forall_forall.
    intros c _. apply request_of_key.
Qed.

(** X6.  The key is never inspected: whatever value is given to the
    constructor, a string or not, construction yields a client, and a
    search on it sends that very value under ["key"]. *)
Theorem any_key_value_is_stored_and_sent {Json : Type} (E : Env Json)
    (c : Call) (key : PyVal) (log : list Request) :
  ∃ o, new_of c key = Return o ∧
  ∃ r, issued (search_of E c) {| self := o; sent := log |} = [r] ∧
       params r !! "key" = Some key.
Proof.
  exists {| api_key := key; root_url := "https://pixabay.com/api/" |}.
  split; [destruct c; reflexivity|].
  eexists. split; [apply search_of_issued|]. apply request_of_key.
Qed.

(** X7.  A video search differs from the image search with the same
    arguments in three entries and the URL only: its URL is the one of the
    image search with ["videos/"] appended, it sends under ["video_type"]
    what the image search sends under ["image_type"], it sends neither
    ["orientation"] nor ["colors"], and all other entries agree. *)
Theorem video_request_from_image_request {Json : Type} (E : Env Json)
    (a : Image.Args) (w : World) :
  ∃ ri rv,
    issued (Image.search E a) w = [ri] ∧
    issued (Video.search E (as_video a)) w = [rv] ∧
    url rv = url ri ++ "videos/" ∧
    params rv !! "video_type" = params ri !! "image_type" ∧
    params rv !! "image_type" = None ∧
    params rv !! "orientation" = None ∧
    params rv !! "colors" = None ∧
    delete "video_type" (params rv) =
      delete "image_type" (delete "orientation" (delete "colors" (params ri))).
Proof.
  exists (Image_request (self w) a), (Video_request (self w) (as_video a)).
  split; [apply Image_issued|]. split; [apply Video_issued|].
  conjuncts; reflexivity.
Qed.

(** Reads the entry [k] off both sides of an equation [H] between the
    requests of the calls [a] and [b]; [f] is the parameter behind the
    entry and [d] its default. *)
Ltac entry H k f d a b :=
  let Hk := fresh "Hentry" in
  assert (Hk : Some (default d (f a)) = Some (default d (f b)))
    by exact (f_equal (λ r : Request, params r !! k) H);
  injection Hk as Hk.

Lemma singleton_inj {A : Type} (x y : A) : [x] = [y] → x = y.
Proof.
  intros H.
  exact (f_equal (λ l : list A, match l with z :: _ => z | [] => x end) H).
Qed.

Lemma Image_request_explicit (o : IPixabay) (a : Image.Args) :
  Image_request o (Image_explicit a) = Image_request o a.
Proof. reflexivity. Qed.

Lemma Video_request_explicit (o : IPixabay) (a : Video.Args) :
  Video_request o (Video_explicit a) = Video_request o a.
Proof. reflexivity. Qed.

Lemma Image_request_inj (o : IPixabay) (a b : Image.Args) :
  Image_request o a = Image_request o b → Image_explicit a = Image_explicit b.
Proof.
  intros H.
  entry H "q" Image.q (PyStr "yellow flower") a b.
  entry H "lang" Image.lang (PyStr "en") a b.
  entry H "id" Image.id (PyStr "") a b.
  entry H "image_type" Image.image_type (PyStr "all") a b.
  entry H "orientation" Image.orientation (PyStr "all") a b.
  entry H "category" Image.category (PyStr "") a b.
  entry H "min_width" Image.min_width (PyInt 0) a b.
  entry H "min_height" Image.min_height (PyInt 0) a b.
  entry H "colors" Image.colors (PyStr "") a b.
  entry H "editors_choice" Image.editors_choice (PyStr "false") a b.
  entry H "safesearch" Image.safesearch (PyStr "false") a b.
  entry H "order" Image.order (PyStr "popular") a b.
  entry H "page" Image.page (PyInt 1) a b.
  entry H "per_page" Image.per_page (PyInt 20) a b.
  entry H "callback" Image.callback (PyStr "") a b.
  entry H "pretty" Image.pretty (PyStr "false") a b.
  clear H. unfold Image_explicit.
  repeat match goal with Hk : _ = _ |- _ => rewrite Hk; clear Hk end.
  reflexivity.
Qed.

Lemma Video_request_inj (o : IPixabay) (a b : Video.Args) :
  Video_request o a = Video_request o b → Video_explicit a = Video_explicit b.
Proof.
  intros H.
  entry H "q" Video.q (PyStr "yellow flower") a b.
  entry H "lang" Video.lang (PyStr "en") a b.
  entry H "id" Video.id (PyStr "") a b.
  entry H "video_type" Video.video_type (PyStr "all") a b.
  entry H "category" Video.category (PyStr "") a b.
  entry H "min_width" Video.min_width (PyInt 0) a b.
  entry H "min_height" Video.min_height (PyInt 0) a b.
  entry H "editors_choice" Video.editors_choice (PyStr "false") a b.
  entry H "safesearch" Video.safesearch (PyStr "false") a b.
  entry H "order" Video.order (PyStr "popular") a b.
  entry H "page" Video.page (PyInt 1) a b.
  entry H "per_page" Video.per_page (PyInt 20) a b.
  entry H "callback" Video.callback (PyStr "") a b.
  entry H "pretty" Video.pretty (PyStr "false") a b.
  clear H. unfold Video_explicit.
  repeat match goal with Hk : _ = _ |- _ => rewrite Hk; clear Hk end.
  reflexivity.
Qed.

(** X8.  The payload holds the bound arguments and nothing else of the
    call: two image searches (two video searches) on one client send the
    same request exactly when every parameter is bound to the same value
    in both, where a parameter left out is bound to its default.  So
    passing a default explicitly cannot be told from leaving the
    parameter out, and any other difference between two calls shows in
    the request. *)
Theorem same_request_iff_same_bound_arguments {Json : Type} (E : Env Json)
    (w : World) (ia ib : Image.Args) (va vb : Video.Args) :
  (issued (Image.search E ia) w = issued (Image.search E ib) w ↔
   Image_explicit ia = Image_explicit ib) ∧
  (issued (Video.search E va) w = issued (Video.search E vb) w ↔
   Video_explicit va = Video_explicit vb).
Proof.
  rewrite !Image_issued, !Video_issued. split; split.
  - intros H. apply (Image_request_inj (self w)), singleton_inj, H.
  - intros H. rewrite <- (Image_request_explicit _ ia), H.
    rewrite Image_request_explicit. reflexivity.
  - intros H. apply (Video_request_inj (self w)), singleton_inj, H.
  - intros H. rewrite <- (Video_request_explicit _ va), H.
    rewrite Video_request_explicit. reflexivity.
Qed.
